(** * Speakeasy backend (Main.py): a shallow embedding and its properties

    Main.py is a FastAPI application with four handlers ([root], [make_call],
    [create_appointment], [twilio_voice]) and one helper
    ([handle_conversation]).  Every handler is glue around three remote
    providers: Twilio (telephony), OpenAI (text generation) and Firestore
    (document store).

    The embedding keeps the providers abstract: what they answer is given by
    an [Environment], and every theorem holds for every environment.  The
    handlers run in a state-and-exception monad whose state records every
    outbound request, so that "calls the provider exactly once" and "calls
    no provider" are statements about that record. *)

From Stdlib Require Import ZArith String Ascii List.
From stdpp Require Import base option list strings pretty gmap.

Local Open Scope string_scope.
Local Open Scope Z_scope.
Local Open Scope list_scope.

(** ** Python data *)

(** A Python [dict] whose keys and values are strings: the JSON bodies the
    handlers return, the chat messages and the Firestore document. *)
Abbreviation dict := (gmap string string).

(** An instance of a subclass of Python's [Exception], as a provider client
    or the interpreter raises it.  [exc_str] is what [str(e)] returns. *)
Record Exception : Type := mkException {
  exc_class : string;
  exc_str : string;
}.

(** [str(e)] *)
Definition str (e : Exception) : string := exc_str e.

(** What leaves a handler when it does not return: an exception nobody
    caught, or the [HTTPException] the handler raised itself. *)
Inductive exn : Type :=
| Unhandled (e : Exception)
| HTTPException (status_code : Z) (detail : string).

(** The result of running Python code. *)
Inductive outcome (E A : Type) : Type :=
| Returned (a : A)
| Raised (e : E).
Arguments Returned {E A} a.
Arguments Raised {E A} e.

(** Truth value of a [str] in [if speech_result:]. *)
Definition truthy (s : string) : bool :=
  match s with
  | EmptyString => false
  | String _ _ => true
  end.

(** ** Request models (pydantic) *)

Record CallRequest : Type := mkCallRequest {
  phone_number : string;
  message : string;
}.

Record AppointmentRequest : Type := mkAppointmentRequest {
  client_name : string;
  doctor_name : string;
  time : string;
}.

(** ** Starlette request and form data *)

(** The fields of a form-encoded body, in the order they were sent.  A field
    may occur more than once. *)
Definition FormData : Type := list (string * string).

(** Starlette builds [_dict = {k: v for k, v in _items}]: a later field
    overwrites an earlier one of the same name. *)
Definition FormData_dict (items : FormData) : dict :=
  foldl (λ d kv, <[kv.1 := kv.2]> d) ∅ items.

(** [form.get(key, default)] *)
Definition FormData_get (key default : string) (form : FormData) : string :=
  match FormData_dict form !! key with
  | Some v => v
  | None => default
  end.

(** An inbound HTTP request, as far as a handler can observe it.  Its body
    is form-encoded ([application/x-www-form-urlencoded], what Twilio
    posts to a webhook): a sequence of fields with string values.  A
    multipart body, which can be malformed or carry uploaded files, is not
    a value of this type. *)
Record Request : Type := mkRequest {
  url_path : string;
  headers : list (string * string);
  query_params : list (string * string);
  client_host : string;
  body_fields : FormData;
}.

(** [PlainTextResponse(content, media_type=...)]; the status code is the
    default one. *)
Record PlainTextResponse : Type := mkPlainTextResponse {
  content : string;
  media_type : string;
  status_code : Z;
}.

(** ** TwiML documents (twilio.twiml.voice_response) *)

(** The one instruction Main.py puts into a document.  TwiML captures what
    the caller says with [Gather] or [Record], which Main.py does not use;
    it has no verb to listen. *)
Inductive Verb : Type :=
| Say (text : string) (voice : string) (language : string).

(** A [VoiceResponse] is the sequence of its instructions. *)
Definition VoiceResponse : Type := list Verb.

(** [VoiceResponse()] *)
Definition VoiceResponse_new : VoiceResponse := [].

(** [response.say(text, voice=..., language=...)] *)
Definition say (text voice language : string) (response : VoiceResponse)
  : VoiceResponse :=
  response ++ [Say text voice language].

(** ** Provider objects *)

(** [twilio_client.calls.create(...)] returns a call instance. *)
Record CallInstance : Type := mkCallInstance {
  sid : string;
}.

(** The answer of [openai.ChatCompletion.create]. *)
Record ChatMessage : Type := mkChatMessage {
  msg_role : string;
  msg_content : string;
}.

Record Choice : Type := mkChoice {
  choice_index : Z;
  choice_message : ChatMessage;
  finish_reason : string;
}.

Record ChatCompletion : Type := mkChatCompletion {
  completion_id : string;
  choices : list Choice;
}.

(** Firestore's [add] returns [(update_time, document_reference)]. *)
Record DocumentReference : Type := mkDocumentReference {
  ref_collection : string;
  id : string;
}.

(** A document held by the store. *)
Record StoredDocument : Type := mkStoredDocument {
  doc_collection : string;
  doc_id : string;
  doc_fields : dict;
}.

(** ** The outside world *)

(** An outbound request to one of the three providers. *)
Inductive ext_call : Type :=
| TwilioCallsCreate (to : string) (from_ : option string) (twiml : string)
| OpenAIChatCompletionCreate (model : string) (messages : list dict)
| FirestoreAdd (collection : string) (document_data : dict).

(** The state the handlers run against.  [providers] is whatever decides
    the providers' answers (their accounts, quotas, the network);
    [documents] are the documents in the store, oldest first; [requests]
    are the outbound requests issued so far, oldest first. *)
Record World (W : Type) : Type := mkWorld {
  providers : W;
  documents : list StoredDocument;
  requests : list ext_call;
}.
Arguments mkWorld {W} _ _ _.
Arguments providers {W} _.
Arguments documents {W} _.
Arguments requests {W} _.

(** What Main.py takes from outside itself: one configuration value, the
    serialisation of a TwiML document ([str(response)]), and the answers of
    the three providers.  A provider either raises or answers, and may
    change its own state. *)
Class Environment (W : Type) : Type := mkEnvironment {
  TWILIO_PHONE_NUMBER : option string;
  VoiceResponse_str : VoiceResponse → string;
  twilio_api : string → option string → string → W → (Exception + CallInstance) * W;
  openai_api : string → list dict → W → (Exception + ChatCompletion) * W;
  firestore_api : string → dict → W → (Exception + (Z * string)) * W;
}.

(** ** The monad of handlers *)

Definition M (W E A : Type) : Type := World W → outcome E A * World W.

#[global] Instance M_ret {W E} : MRet (M W E) :=
  λ A (a : A) w, (Returned a, w).

#[global] Instance M_bind {W E} : MBind (M W E) :=
  λ A B (f : A → M W E B) (m : M W E A) w,
    match m w with
    | (Returned a, w') => f a w'
    | (Raised e, w') => (Raised e, w')
    end.

(** [raise e] *)
Definition raise {W E A} (e : E) : M W E A :=
  λ w, (Raised e, w).

(** [try: body / except Exception as e: handler e] *)
Definition try_except {W E E' A} (body : M W E A) (handler : E → M W E' A)
  : M W E' A :=
  λ w,
    match body w with
    | (Returned a, w') => (Returned a, w')
    | (Raised e, w') => handler e w'
    end.

(** A call made outside every [try]: what it raises leaves the handler
    as it is. *)
Definition uncaught {W A} (m : M W Exception A) : M W exn A :=
  λ w,
    match m w with
    | (Returned a, w') => (Returned a, w')
    | (Raised e, w') => (Raised (Unhandled e), w')
    end.

(** What Python raises for [response.listen]. *)
Definition no_attribute_listen : Exception :=
  mkException "AttributeError" "'VoiceResponse' object has no attribute 'listen'".

(** [response.listen()]: twilio's [VoiceResponse] has a method for each
    TwiML verb ([say], [play], [gather], [record], [dial] and so on), none
    named [listen], and no [__getattr__]; looking the attribute up raises
    [AttributeError] before anything is called. *)
Definition listen {W} (response : VoiceResponse)
  : M W Exception VoiceResponse :=
  raise no_attribute_listen.

(** [l[i]] on a Python list, for an index that is not negative. *)
Definition list_getitem {W A} (l : list A) (i : nat) : M W Exception A :=
  match l !! i with
  | Some a => mret a
  | None => raise (mkException "IndexError" "list index out of range")
  end.

(** Issue the request [c]: record it, let the provider answer. *)
Definition external {W A} (c : ext_call) (api : W → (Exception + A) * W)
  : M W Exception A :=
  λ w,
    let '(r, p) := api (providers w) in
    (match r with inl e => Raised e | inr a => Returned a end,
     mkWorld p (documents w) (requests w ++ [c])).

Section Handlers.
Context {W : Type} `{Env : Environment W}.

(** ** Provider clients *)

(** [twilio_client.calls.create(to=..., from_=..., twiml=...)] *)
Definition twilio_client_calls_create (to : string) (from_ : option string)
    (twiml : string) : M W Exception CallInstance :=
  external (TwilioCallsCreate to from_ twiml) (twilio_api to from_ twiml).

(** [openai.ChatCompletion.create(model=..., messages=...)] *)
Definition openai_ChatCompletion_create (model : string)
    (messages : list dict) : M W Exception ChatCompletion :=
  external (OpenAIChatCompletionCreate model messages)
           (openai_api model messages).

(** [db.collection(name).add(document_data)]: when the store accepts the
    document it holds it under the identifier it generated, and the client
    returns the update time and a reference carrying that identifier.  A
    raise is read as a refusal: the store then holds what it held.  An
    insert that the store applied while its answer was lost on the way is
    not represented. *)
Definition db_collection_add (name : string) (document_data : dict)
  : M W Exception (Z * DocumentReference) :=
  λ w,
    match external (FirestoreAdd name document_data)
                   (firestore_api name document_data) w with
    | (Returned (update_time, new_id), w') =>
        (Returned (update_time, mkDocumentReference name new_id),
         mkWorld (providers w')
                 (documents w' ++ [mkStoredDocument name new_id document_data])
                 (requests w'))
    | (Raised e, w') => (Raised e, w')
    end.

(** ** Endpoints *)

(** [GET /] *)
Definition root : M W exn dict :=
  mret {[ "message" := "Speakeasy running" ]}.

(** [POST /call] *)
Definition make_call (request : CallRequest) : M W exn dict :=
  try_except
    (let response := VoiceResponse_new in
     let response := say (message request) "alice" "en-US" response in
     call ← twilio_client_calls_create
              (phone_number request) TWILIO_PHONE_NUMBER
              (VoiceResponse_str response);
     mret ({[ "status" := "initiated"; "sid" := sid call ]} : dict))
    (λ e, raise (HTTPException 500 (str e))).

(** [POST /appointment] *)
Definition create_appointment (request : AppointmentRequest) : M W exn dict :=
  try_except
    (doc_ref ← db_collection_add "appointments"
                 {[ "client_name" := client_name request;
                    "doctor_name" := doctor_name request;
                    "time" := time request ]};
     mret ({[ "status" := "success"; "appointment_id" := id (doc_ref.2) ]} : dict))
    (λ e, raise (HTTPException 500 (str e))).

(** The default of [handle_conversation]'s parameter [model]. *)
Definition default_model : string := "gpt-3.5-turbo".

(** [handle_conversation(prompt, model)] *)
Definition handle_conversation (prompt : string) (model : string)
  : M W exn string :=
  try_except
    (completion ← openai_ChatCompletion_create model
                    [ ({[ "role" := "user"; "content" := prompt ]} : dict) ];
     choice ← list_getitem (choices completion) 0;
     mret (msg_content (choice_message choice)))
    (λ e, mret ("Error: " +:+ str e)).

(** [await request.form()]: on a form-encoded body Starlette's parser
    yields the fields and raises nothing of its own. *)
Definition request_form (request : Request) : M W exn FormData :=
  mret (body_fields request).

(** [POST /twilio/voice] *)
Definition twilio_voice (request : Request) : M W exn PlainTextResponse :=
  form ← request_form request;
  let speech_result := FormData_get "SpeechResult" "" form in
  openai_reply ←
    (if truthy speech_result
     then handle_conversation speech_result default_model
     else mret "Hello, welcome to Speakeasy. How may I assist you?");
  let response := VoiceResponse_new in
  let response := say openai_reply "alice" "en-US" response in
  response ← uncaught (listen response);
  mret (mkPlainTextResponse (VoiceResponse_str response) "application/xml" 200).

End Handlers.

(** ** The application: its four routes *)

(** What a route sends back: a handler that returns a [dict] answers with
    that JSON body, the webhook with the response object it returns. *)
Inductive Reply : Type :=
| JSONReply (body : dict)
| MarkupReply (response : PlainTextResponse).

(** One inbound request: the route that [@app.get] or [@app.post] registers,
    with the argument its handler receives. *)
Inductive Invocation : Type :=
| GET_root
| POST_call (request : CallRequest)
| POST_appointment (request : AppointmentRequest)
| POST_twilio_voice (request : Request).

Section App.
Context {W : Type} `{Env : Environment W}.

(** The handler behind each route. *)
Definition invoke (call : Invocation) : M W exn Reply :=
  match call with
  | GET_root => body ← root; mret (JSONReply body)
  | POST_call request => body ← make_call request; mret (JSONReply body)
  | POST_appointment request =>
      body ← create_appointment request; mret (JSONReply body)
  | POST_twilio_voice request =>
      response ← twilio_voice request; mret (MarkupReply response)
  end.

(** Requests served one after the other.  A request that ends in an
    exception is answered with an error and the next one is served in the
    world it left. *)
Fixpoint serve (calls : list Invocation) (w : World W)
  : list (outcome exn Reply) * World W :=
  match calls with
  | [] => ([], w)
  | call :: calls' =>
      let '(r, w1) := invoke call w in
      let '(rs, w2) := serve calls' w1 in
      (r :: rs, w2)
  end.

End App.

(** A document as [create_appointment] writes it. *)
Definition appointment_record (d : StoredDocument) : Prop :=
  doc_collection d = "appointments"
  ∧ dom (doc_fields d) = {[ "client_name"; "doctor_name"; "time" ]}.

(** Whether an exchange is an appointment request answered without an
    exception. *)
Definition appointment_accepted (exchange : Invocation * outcome exn Reply)
  : bool :=
  match exchange with
  | (POST_appointment _, Returned _) => true
  | _ => false
  end.

(** Whether a request is for [POST /appointment]. *)
Definition is_appointment_request (call : Invocation) : bool :=
  match call with
  | POST_appointment _ => true
  | _ => false
  end.

(** ** Start-up: the Firebase block

    [[
    if not firebase_admin._apps:
        cred = credentials.Certificate(FIREBASE_CREDENTIALS_FILE)
        firebase_admin.initialize_app(cred)
    db = firestore.client()
    ]]

    The three library calls and the registry [firebase_admin._apps] belong
    to firebase_admin.  They act on the state [P] of the Python process;
    [C] is the type of credentials and [D] that of store clients. *)
Class FirebaseAdmin (P C D : Type) : Type := mkFirebaseAdmin {
  (** Truth value of [firebase_admin._apps]: some app is registered. *)
  firebase_admin_apps : P → bool;
  credentials_Certificate : option string → P → (Exception + C) * P;
  firebase_admin_initialize_app : C → P → (Exception + unit) * P;
  firestore_client : P → (Exception + D) * P;
}.

Section Startup.
Context {P C D : Type} `{Lib : FirebaseAdmin P C D}.

(** The guarded part of the block. *)
Definition initialize_app_once (FIREBASE_CREDENTIALS_FILE : option string)
    (s : P) : outcome Exception () * P :=
  if negb (firebase_admin_apps s) then
    match credentials_Certificate FIREBASE_CREDENTIALS_FILE s with
    | (inl e, s1) => (Raised e, s1)
    | (inr cred, s1) =>
        match firebase_admin_initialize_app cred s1 with
        | (inl e, s2) => (Raised e, s2)
        | (inr _, s2) => (Returned (), s2)
        end
    end
  else (Returned (), s).

(** [db = firestore.client()] *)
Definition db_client (s : P) : outcome Exception D * P :=
  match firestore_client s with
  | (inl e, s') => (Raised e, s')
  | (inr db, s') => (Returned db, s')
  end.

(** The whole block; its value is [db]. *)
Definition initialize_firebase (FIREBASE_CREDENTIALS_FILE : option string)
    (s : P) : outcome Exception D * P :=
  match initialize_app_once FIREBASE_CREDENTIALS_FILE s with
  | (Raised e, s') => (Raised e, s')
  | (Returned _, s') => db_client s'
  end.

End Startup.

(** ** A concrete environment

    One environment in which everything computes: a serialiser that writes
    TwiML the way the twilio library does, and three providers driven by a
    counter of the requests they have left to serve.  A provider with no
    request left raises. *)
Module Sample.

Definition dquote : string := String "034"%char EmptyString.

(** Character data as ElementTree escapes it. *)
Fixpoint xml_escape (s : string) : string :=
  match s with
  | EmptyString => EmptyString
  | String c rest =>
      (if Ascii.eqb c "&"%char then "&amp;"
       else if Ascii.eqb c "<"%char then "&lt;"
       else if Ascii.eqb c ">"%char then "&gt;"
       else String c EmptyString) +:+ xml_escape rest
  end.

Definition verb_xml (v : Verb) : string :=
  match v with
  | Say text voice language =>
      "<Say language=" +:+ dquote +:+ language +:+ dquote +:+
      " voice=" +:+ dquote +:+ voice +:+ dquote +:+ ">" +:+
      xml_escape text +:+ "</Say>"
  end.

Definition to_xml (response : VoiceResponse) : string :=
  "<?xml version=" +:+ dquote +:+ "1.0" +:+ dquote +:+
  " encoding=" +:+ dquote +:+ "UTF-8" +:+ dquote +:+ "?>" +:+
  "<Response>" +:+ foldr (λ v acc, verb_xml v +:+ acc) "</Response>" response.

(** Twilio refuses an empty destination and a missing origin. *)
Definition twilio (to : string) (from_ : option string) (twiml : string)
    (left : nat) : (Exception + CallInstance) * nat :=
  match left with
  | O => (inl (mkException "TwilioRestException" "HTTP 429 error: Too Many Requests"), O)
  | S left' =>
      match from_ with
      | None => (inl (mkException "TwilioRestException" "HTTP 400 error: No From number"), left')
      | Some _ =>
          if truthy to
          then (inr (mkCallInstance ("CA" +:+ to)), left')
          else (inl (mkException "TwilioRestException" "HTTP 400 error: No To number"), left')
      end
  end.

(** The completion has one choice, which repeats the last message. *)
Definition openai (model : string) (messages : list dict) (left : nat)
  : (Exception + ChatCompletion) * nat :=
  match left with
  | O => (inl (mkException "RateLimitError" "You exceeded your current quota"), O)
  | S left' =>
      let said := default EmptyString (last messages ≫= (.!! "content")) in
      (inr (mkChatCompletion "chatcmpl-1"
              [mkChoice 0 (mkChatMessage "assistant" ("You said: " +:+ said)) "stop"]),
       left')
  end.

Definition firestore (name : string) (document_data : dict) (left : nat)
  : (Exception + (Z * string)) * nat :=
  match left with
  | O => (inl (mkException "ServiceUnavailable" "503 failed to connect"), O)
  | S left' => (inr (1760610600, "doc" +:+ pretty left), left')
  end.

Definition env : Environment nat :=
  mkEnvironment nat (Some "+15550100") to_xml twilio openai firestore.

(** A world whose providers serve three more requests, and one whose
    providers serve none. *)
Definition up : World nat := mkWorld 3%nat [] [].
Definition down : World nat := mkWorld 0%nat [] [].

Definition call_request : CallRequest :=
  mkCallRequest "+15550123" "Your appointment is at 10:30 <sharp>".

Definition appointment_request : AppointmentRequest :=
  mkAppointmentRequest "Ada" "Dr. Grace" "2025-10-16T10:30:00Z".

(** A webhook request carrying recognised speech, a second one that
    agrees with it on [SpeechResult] only, and one without the field. *)
Definition speech_request : Request :=
  mkRequest "/twilio/voice" [("User-Agent", "TwilioProxy/1.1")] [] "10.0.0.1"
            [("CallSid", "CA1"); ("SpeechResult", "book an appointment")].


Definition first_request : Request :=
  mkRequest "/twilio/voice" [] [] "10.0.0.1" [("CallSid", "CA1")].

End Sample.

(** ** More scenarios *)
Module Scenario.

(** A text-generation provider that answers with no choice at all. *)
Definition openai_silent (model : string) (messages : list dict) (left : nat)
  : (Exception + ChatCompletion) * nat :=
  (inr (mkChatCompletion "chatcmpl-0" []), left).

Definition silent_env : Environment nat :=
  mkEnvironment nat (Some "+15550100") Sample.to_xml Sample.twilio
    openai_silent Sample.firestore.

(** A morning of traffic. *)
Definition morning : list Invocation :=
  [GET_root; POST_twilio_voice Sample.speech_request;
   POST_call Sample.call_request; POST_twilio_voice Sample.first_request;
   POST_appointment (mkAppointmentRequest "Bob" "Dr. Hopper" "tomorrow");
   POST_appointment (mkAppointmentRequest "Eve" "Dr. Hopper" "tomorrow")].

(** A world whose providers serve one more request. *)
Definition last_one : World nat := mkWorld 1%nat [] [].

(** A Python process as far as firebase_admin goes: the names of the
    registered apps, and the files on disk. *)
Record Process : Type := mkProcess {
  apps : list string;
  files : list string;
}.

Definition Certificate (path : option string) (s : Process)
  : (Exception + string) * Process :=
  match path with
  | None => (inl (mkException "TypeError" "expected str, not NoneType"), s)
  | Some file =>
      if bool_decide (file ∈ files s) then (inr file, s)
      else (inl (mkException "FileNotFoundError" "No such file or directory"), s)
  end.

Definition initialize_app (cred : string) (s : Process)
  : (Exception + ()) * Process :=
  if bool_decide ("[DEFAULT]" ∈ apps s)
  then (inl (mkException "ValueError" "The default Firebase app already exists."), s)
  else (inr (), mkProcess ("[DEFAULT]" :: apps s) (files s)).

Definition client (s : Process) : (Exception + string) * Process :=
  if bool_decide ("[DEFAULT]" ∈ apps s)
  then (inr "firestore-client", s)
  else (inl (mkException "ValueError" "The default Firebase app does not exist."), s).

Definition firebase : FirebaseAdmin Process string string :=
  mkFirebaseAdmin Process string string
    (λ s, negb (bool_decide (apps s = []))) Certificate initialize_app client.

Definition fresh_process : Process := mkProcess [] ["serviceAccountKey.json"].

End Scenario.

(** ** Form data *)

Lemma FormData_dict_snoc (items : FormData) (key value : string) :
  FormData_dict (items ++ [(key, value)]) = <[key := value]> (FormData_dict items).
Proof. unfold FormData_dict. by rewrite foldl_snoc. Qed.

(** The last field of a name is the one [get] sees. *)
Lemma FormData_get_last (items : FormData) (key value default : string) :
  FormData_get key default (items ++ [(key, value)]) = value.
Proof.
  unfold FormData_get. by rewrite FormData_dict_snoc, lookup_insert_eq.
Qed.

(** A name has no value exactly when no field carries it. *)
Lemma FormData_dict_absent (items : FormData) (key : string) :
  FormData_dict items !! key = None ↔ key ∉ items.*1.
Proof.
  induction items as [|[k v] items IH] using rev_ind.
  - split; [intros _; apply not_elem_of_nil | done].
  - rewrite FormData_dict_snoc, fmap_app, not_elem_of_app. simpl.
    rewrite lookup_insert_None, IH, not_elem_of_cons. simpl.
    split; [intros [? ?] | intros [? [? _]]]; split_and!;
      auto using not_elem_of_nil.
Qed.

(** [get] falls back on the default for an absent field. *)
Lemma FormData_get_absent (items : FormData) (key default : string) :
  key ∉ items.*1 → FormData_get key default items = default.
Proof.
  intros Habs. unfold FormData_get.
  by rewrite (proj2 (FormData_dict_absent items key) Habs).
Qed.

Lemma truthy_spec (s : string) : truthy s = true ↔ s ≠ EmptyString.
Proof. destruct s; simpl; split; congruence. Qed.

(** ** Running the monad *)

Lemma bind_returned {W E A B} (m : M W E A) (f : A → M W E B) w a w' :
  m w = (Returned a, w') → (m ≫= f) w = f a w'.
Proof. intros Hm. unfold mbind, M_bind. by rewrite Hm. Qed.

Lemma external_run {W A} (c : ext_call) (api : W → (Exception + A) * W)
    (w : World W) :
  external c api w =
    (match (api (providers w)).1 with inl e => Raised e | inr a => Returned a end,
     mkWorld (api (providers w)).2 (documents w) (requests w ++ [c])).
Proof. unfold external. by destruct (api (providers w)). Qed.

(** Unfold a handler down to the provider's answer. *)
Ltac run_handler :=
  unfold try_except, mbind, M_bind, mret, M_ret, raise;
  unfold twilio_client_calls_create, openai_ChatCompletion_create,
    db_collection_add, say, VoiceResponse_new;
  rewrite ?external_run; simpl.

Section Properties.
Context {W : Type} `{Env : Environment W}.

(** *** The health check *)

(** C9: [GET /] returns the body [{"message": "Speakeasy running"}] in
    every world and every environment, and leaves the world as it found
    it: no request goes out to any of the three providers. *)
Theorem root_always_succeeds (w : World W) :
  root w = (Returned {[ "message" := "Speakeasy running" ]}, w).
Proof. reflexivity. Qed.

(** *** Call initiation *)

(** C4: [POST /call] issues exactly one provider request, a call to the
    request's [phone_number] from the configured origin number whose
    script is the serialised document with the single instruction
    [Say message]; when the provider answers with a call instance the
    handler returns [{"status": "initiated", "sid": call.sid}]. *)
Theorem make_call_initiates (request : CallRequest) (w : World W) :
  let twiml := VoiceResponse_str [Say (message request) "alice" "en-US"] in
  let call :=
    TwilioCallsCreate (phone_number request) TWILIO_PHONE_NUMBER twiml in
  requests (make_call request w).2 = requests w ++ [call] ∧
  ∀ (c : CallInstance) (p : W),
    twilio_api (phone_number request) TWILIO_PHONE_NUMBER twiml (providers w)
      = (inr c, p) →
    make_call request w =
      (Returned {[ "status" := "initiated"; "sid" := sid c ]},
       mkWorld p (documents w) (requests w ++ [call])).
Proof.
  intros twiml call. unfold make_call. run_handler.
  fold twiml call. split.
  - by destruct (twilio_api _ _ _ _) as [[e|c] p].
  - intros c p Hapi. by rewrite Hapi.
Qed.

(** C7: when the provider call raises [e], whatever its class, [POST /call]
    raises [HTTPException(status_code=500, detail=str(e))], and the one
    request that failed is the only one issued. *)
Theorem make_call_failure (request : CallRequest) (w : World W)
    (e : Exception) (p : W) :
  let twiml := VoiceResponse_str [Say (message request) "alice" "en-US"] in
  twilio_api (phone_number request) TWILIO_PHONE_NUMBER twiml (providers w)
    = (inl e, p) →
  make_call request w =
    (Raised (HTTPException 500 (str e)),
     mkWorld p (documents w)
       (requests w ++
          [TwilioCallsCreate (phone_number request) TWILIO_PHONE_NUMBER twiml])).
Proof.
  intros twiml Hapi. unfold make_call. run_handler.
  fold twiml. by rewrite Hapi.
Qed.

(** *** Appointment creation *)

(** C3: when the store accepts the insert and generates [new_id],
    [POST /appointment] leaves the store with exactly one more document,
    in the collection [appointments], under [new_id], whose fields are
    exactly [client_name], [doctor_name] and [time] with the submitted
    values; it has issued exactly one request, that insert; and it returns
    [{"status": "success", "appointment_id": new_id}]. *)
Theorem create_appointment_inserts (request : AppointmentRequest)
    (w : World W) (update_time : Z) (new_id : string) (p : W) :
  firestore_api "appointments"
    {[ "client_name" := client_name request;
       "doctor_name" := doctor_name request;
       "time" := time request ]} (providers w)
    = (inr (update_time, new_id), p) →
  ∃ record : StoredDocument,
    create_appointment request w =
      (Returned {[ "status" := "success"; "appointment_id" := new_id ]},
       mkWorld p (documents w ++ [record])
         (requests w ++ [FirestoreAdd "appointments" (doc_fields record)]))
    ∧ doc_collection record = "appointments"
    ∧ doc_id record = new_id
    ∧ doc_fields record !! "client_name" = Some (client_name request)
    ∧ doc_fields record !! "doctor_name" = Some (doctor_name request)
    ∧ doc_fields record !! "time" = Some (time request)
    ∧ dom (doc_fields record) = {[ "client_name"; "doctor_name"; "time" ]}.
Proof.
  intros Hapi.
  eexists (mkStoredDocument "appointments" new_id _).
  split_and!; [| reflexivity | reflexivity | | | |].
  - unfold create_appointment. run_handler. rewrite Hapi. reflexivity.
  - simpl. by simplify_map_eq.
  - simpl. by simplify_map_eq.
  - simpl. by simplify_map_eq.
  - simpl. rewrite !dom_insert_L, dom_singleton_L. set_solver.
Qed.

(** C8: when the store insert raises [e], [POST /appointment] raises
    [HTTPException(status_code=500, detail=str(e))]; no document is
    added. *)
Theorem create_appointment_failure (request : AppointmentRequest)
    (w : World W) (e : Exception) (p : W) :
  let document_data : dict :=
    {[ "client_name" := client_name request;
       "doctor_name" := doctor_name request;
       "time" := time request ]} in
  firestore_api "appointments" document_data (providers w) = (inl e, p) →
  create_appointment request w =
    (Raised (HTTPException 500 (str e)),
     mkWorld p (documents w)
       (requests w ++ [FirestoreAdd "appointments" document_data])).
Proof.
  intros document_data Hapi. unfold create_appointment. run_handler.
  fold document_data. by rewrite Hapi.
Qed.

(** *** The conversation helper *)

(** What [handle_conversation] does, in one equation: one request goes
    out; the reply is the first choice's content, or the text of whatever
    was raised, be it by the provider or by [choices[0]]. *)
Lemma handle_conversation_run (prompt model : string) (w : World W) :
  let messages : list dict :=
    [ {[ "role" := "user"; "content" := prompt ]} ] in
  handle_conversation prompt model w =
    (Returned
       match (openai_api model messages (providers w)).1 with
       | inl e => "Error: " +:+ str e
       | inr completion =>
           match choices completion with
           | first :: _ => msg_content (choice_message first)
           | [] => "Error: list index out of range"
           end
       end,
     mkWorld (openai_api model messages (providers w)).2 (documents w)
       (requests w ++ [OpenAIChatCompletionCreate model messages])).
Proof.
  intros messages. unfold handle_conversation. run_handler. fold messages.
  destruct (openai_api model messages (providers w)) as [[e|completion] p];
    simpl; [reflexivity|].
  unfold list_getitem. by destruct (choices completion) as [|first rest].
Qed.

(** C2: [handle_conversation] returns a string for every prompt, model
    and world, and never raises; when the text-generation call raises [e]
    the string is ["Error: "] followed by [str(e)]. *)
Theorem handle_conversation_never_raises (prompt model : string)
    (w : World W) :
  ∃ (reply : string) (w' : World W),
    handle_conversation prompt model w = (Returned reply, w') ∧
    ∀ (e : Exception) (p : W),
      openai_api model [ {[ "role" := "user"; "content" := prompt ]} ]
        (providers w) = (inl e, p) →
      reply = "Error: " +:+ str e.
Proof.
  rewrite handle_conversation_run. do 2 eexists. split; [reflexivity|].
  intros e p Hapi. by rewrite Hapi.
Qed.

(** C6: [handle_conversation] issues exactly one request, a chat
    completion for the given model whose message list is the single
    message [{"role": "user", "content": prompt}]; when the provider
    answers with a completion that has a first choice, the helper returns
    that choice's message content. *)
Theorem handle_conversation_single_turn (prompt model : string)
    (w : World W) :
  ∃ message : dict,
    requests (handle_conversation prompt model w).2
      = requests w ++ [OpenAIChatCompletionCreate model [message]]
    ∧ message !! "role" = Some "user"
    ∧ message !! "content" = Some prompt
    ∧ dom message = {[ "role"; "content" ]}
    ∧ ∀ (completion : ChatCompletion) (p : W) (first : Choice)
        (rest : list Choice),
        openai_api model [message] (providers w) = (inr completion, p) →
        choices completion = first :: rest →
        (handle_conversation prompt model w).1
          = Returned (msg_content (choice_message first)).
Proof.
  rewrite handle_conversation_run.
  exists {[ "role" := "user"; "content" := prompt ]}. simpl.
  split_and!; [reflexivity | by simplify_map_eq | by simplify_map_eq | |].
  - rewrite dom_insert_L, dom_singleton_L. set_solver.
  - intros completion p first rest Hapi Hchoices.
    by rewrite Hapi; simpl; rewrite Hchoices.
Qed.

(** *** The voice webhook *)

Lemma twilio_voice_with_speech (request : Request) (w w' : World W)
    (reply : string) :
  let speech_result :=
    FormData_get "SpeechResult" EmptyString (body_fields request) in
  truthy speech_result = true →
  handle_conversation speech_result default_model w = (Returned reply, w') →
  twilio_voice request w = (Raised (Unhandled no_attribute_listen), w').
Proof.
  intros speech_result Htrue Hreply. unfold twilio_voice, request_form.
  unfold mbind at 1, M_bind at 1, mret at 1, M_ret at 1.
  fold speech_result. rewrite Htrue.
  by rewrite (bind_returned _ _ _ _ _ Hreply).
Qed.

Lemma twilio_voice_without_speech (request : Request) (w : World W) :
  truthy (FormData_get "SpeechResult" EmptyString (body_fields request))
    = false →
  twilio_voice request w = (Raised (Unhandled no_attribute_listen), w).
Proof.
  intros Hfalse. unfold twilio_voice, request_form.
  unfold mbind at 1, M_bind at 1, mret at 1, M_ret at 1.
  by rewrite Hfalse.
Qed.

(** C1: the webhook chooses the reply as the claim says and then loses it.
    When the form has a non-empty [SpeechResult], exactly that string goes
    to [handle_conversation] (as the one user message of the one request
    issued) and the helper returns a string; when the form has no
    [SpeechResult] or an empty one, no provider is called.  In both cases
    line 120 then raises [AttributeError], "'VoiceResponse' object has no
    attribute 'listen'", outside every [try]: no reply is spoken, neither
    the helper's string nor the greeting. *)
Theorem twilio_voice_reply_is_lost (request : Request) (w : World W) :
  (∀ speech : string,
     FormData_dict (body_fields request) !! "SpeechResult" = Some speech →
     speech ≠ EmptyString →
     ∃ (reply : string) (w' : World W),
       handle_conversation speech default_model w = (Returned reply, w')
       ∧ requests w' =
           requests w ++
           [OpenAIChatCompletionCreate "gpt-3.5-turbo"
              [ {[ "role" := "user"; "content" := speech ]} ]]
       ∧ twilio_voice request w =
           (Raised
              (Unhandled
                 (mkException "AttributeError"
                    "'VoiceResponse' object has no attribute 'listen'")),
            w'))
  ∧ (FormData_dict (body_fields request) !! "SpeechResult" = None
     ∨ FormData_dict (body_fields request) !! "SpeechResult"
         = Some EmptyString →
     twilio_voice request w =
       (Raised
          (Unhandled
             (mkException "AttributeError"
                "'VoiceResponse' object has no attribute 'listen'")),
        w)).
Proof.
  split.
  - intros speech Hfield Hnonempty.
    assert (Hget : FormData_get "SpeechResult" EmptyString
                     (body_fields request) = speech)
      by (unfold FormData_get; by rewrite Hfield).
    pose proof (handle_conversation_run speech default_model w) as Hrun.
    simpl in Hrun. do 2 eexists. split_and!; [exact Hrun | reflexivity |].
    eapply twilio_voice_with_speech; rewrite Hget;
      [by apply truthy_spec | exact Hrun].
  - intros Hfield. apply twilio_voice_without_speech.
    unfold FormData_get. by destruct Hfield as [-> | ->].
Qed.

(** C5: the webhook never returns a response.  For every request and every
    world it raises [AttributeError], "'VoiceResponse' object has no
    attribute 'listen'", at line 120, after the [Say] and before the
    [PlainTextResponse] is built: no markup, of any content type, leaves
    the handler. *)
Theorem twilio_voice_never_returns (request : Request) (w : World W) :
  (twilio_voice request w).1 =
    Raised
      (Unhandled
         (mkException "AttributeError"
            "'VoiceResponse' object has no attribute 'listen'")).
Proof.
  destruct (truthy (FormData_get "SpeechResult" EmptyString
                      (body_fields request))) eqn:Hspeech.
  - pose proof (handle_conversation_run
                  (FormData_get "SpeechResult" EmptyString (body_fields request))
                  default_model w) as Hreply.
    simpl in Hreply.
    by rewrite (twilio_voice_with_speech _ _ _ _ Hspeech Hreply).
  - by rewrite (twilio_voice_without_speech _ _ Hspeech).
Qed.


End Properties.

(** A caller of [handle_conversation] cannot tell a failure from an answer
    by the shape of the result: a provider that raises [e] and a provider
    that answers with the text ["Error: " + str(e)] make it return the same
    string. *)
Lemma handle_conversation_failure_reads_as_answer (prompt model : string)
    (e : Exception) (w : World unit) :
  let failing : Environment unit :=
    mkEnvironment unit None (λ _, EmptyString)
      (λ _ _ _ u, (inl e, u)) (λ _ _ u, (inl e, u)) (λ _ _ u, (inl e, u)) in
  let answering : Environment unit :=
    mkEnvironment unit None (λ _, EmptyString)
      (λ _ _ _ u, (inl e, u))
      (λ _ _ u,
         (inr (mkChatCompletion "chatcmpl-2"
                 [mkChoice 0 (mkChatMessage "assistant" ("Error: " +:+ str e))
                    "stop"]), u))
      (λ _ _ u, (inl e, u)) in
  handle_conversation (Env := failing) prompt model w
    = handle_conversation (Env := answering) prompt model w.
Proof. intros failing answering. by rewrite !handle_conversation_run. Qed.

(** ** The theorems at work in the sample environment *)

Lemma make_call_initiates_witness :
  requests (make_call (Env := Sample.env) Sample.call_request Sample.up).2
    = [TwilioCallsCreate "+15550123" (Some "+15550100")
         (Sample.to_xml [Say "Your appointment is at 10:30 <sharp>" "alice" "en-US"])]
  ∧ make_call (Env := Sample.env) Sample.call_request Sample.up =
      (Returned {[ "status" := "initiated"; "sid" := "CA+15550123" ]},
       mkWorld 2%nat []
         [TwilioCallsCreate "+15550123" (Some "+15550100")
            (Sample.to_xml [Say "Your appointment is at 10:30 <sharp>" "alice" "en-US"])]).
Proof.
  pose proof (make_call_initiates (Env := Sample.env)
                Sample.call_request Sample.up) as [Hone Hok].
  split; [exact Hone|].
  apply (Hok (mkCallInstance "CA+15550123") 2%nat). reflexivity.
Defined.

Lemma make_call_failure_witness :
  make_call (Env := Sample.env) Sample.call_request Sample.down =
    (Raised (HTTPException 500 "HTTP 429 error: Too Many Requests"),
     mkWorld 0%nat []
       [TwilioCallsCreate "+15550123" (Some "+15550100")
          (Sample.to_xml [Say "Your appointment is at 10:30 <sharp>" "alice" "en-US"])]).
Proof.
  apply (make_call_failure (Env := Sample.env) Sample.call_request Sample.down
           (mkException "TwilioRestException" "HTTP 429 error: Too Many Requests")
           0%nat).
  reflexivity.
Defined.

Lemma create_appointment_inserts_witness :
  ∃ record : StoredDocument,
    create_appointment (Env := Sample.env) Sample.appointment_request Sample.up =
      (Returned {[ "status" := "success"; "appointment_id" := "doc3" ]},
       mkWorld 2%nat [record]
         [FirestoreAdd "appointments" (doc_fields record)])
    ∧ doc_collection record = "appointments"
    ∧ doc_id record = "doc3"
    ∧ doc_fields record !! "client_name" = Some "Ada"
    ∧ doc_fields record !! "doctor_name" = Some "Dr. Grace"
    ∧ doc_fields record !! "time" = Some "2025-10-16T10:30:00Z"
    ∧ dom (doc_fields record) = {[ "client_name"; "doctor_name"; "time" ]}.
Proof.
  apply (create_appointment_inserts (Env := Sample.env)
           Sample.appointment_request Sample.up 1760610600 "doc3" 2%nat).
  reflexivity.
Defined.

Lemma create_appointment_failure_witness :
  create_appointment (Env := Sample.env) Sample.appointment_request Sample.down =
    (Raised (HTTPException 500 "503 failed to connect"),
     mkWorld 0%nat []
       [FirestoreAdd "appointments"
          {[ "client_name" := "Ada"; "doctor_name" := "Dr. Grace";
             "time" := "2025-10-16T10:30:00Z" ]}]).
Proof.
  apply (create_appointment_failure (Env := Sample.env)
           Sample.appointment_request Sample.down
           (mkException "ServiceUnavailable" "503 failed to connect") 0%nat).
  reflexivity.
Defined.

Lemma handle_conversation_never_raises_witness :
  ∃ (reply : string) (w' : World nat),
    handle_conversation (Env := Sample.env) "book an appointment"
      default_model Sample.down = (Returned reply, w')
    ∧ reply = "Error: You exceeded your current quota".
Proof.
  destruct (handle_conversation_never_raises (Env := Sample.env)
              "book an appointment" default_model Sample.down)
    as (reply & w' & Hrun & Hraised).
  exists reply, w'. split; [exact Hrun|].
  apply (Hraised (mkException "RateLimitError" "You exceeded your current quota")
           0%nat).
  reflexivity.
Defined.

Lemma handle_conversation_single_turn_witness :
  ∃ message : dict,
    requests (handle_conversation (Env := Sample.env) "book an appointment"
                default_model Sample.up).2
      = [OpenAIChatCompletionCreate "gpt-3.5-turbo" [message]]
    ∧ message !! "content" = Some "book an appointment"
    ∧ (handle_conversation (Env := Sample.env) "book an appointment"
         default_model Sample.up).1
        = Returned "You said: book an appointment".
Proof.
  destruct (handle_conversation_single_turn (Env := Sample.env)
              "book an appointment" default_model Sample.up)
    as (message & Hone & Hrole & Hcontent & Hdom & Hfirst).
  exists message. split; [exact Hone|]. split; [exact Hcontent|].
  apply (Hfirst
           (mkChatCompletion "chatcmpl-1"
              [mkChoice 0
                 (mkChatMessage "assistant" "You said: book an appointment")
                 "stop"])
           2%nat
           (mkChoice 0
              (mkChatMessage "assistant" "You said: book an appointment") "stop")
           []); [|reflexivity].
  simpl. unfold Sample.openai. simpl. by rewrite Hcontent.
Defined.

Lemma twilio_voice_reply_is_lost_witness :
  (∃ (reply : string) (w' : World nat),
     handle_conversation (Env := Sample.env) "book an appointment"
       default_model Sample.up = (Returned reply, w')
     ∧ twilio_voice (Env := Sample.env) Sample.speech_request Sample.up =
         (Raised
            (Unhandled
               (mkException "AttributeError"
                  "'VoiceResponse' object has no attribute 'listen'")),
          w'))
  ∧ twilio_voice (Env := Sample.env) Sample.first_request Sample.down =
      (Raised
         (Unhandled
            (mkException "AttributeError"
               "'VoiceResponse' object has no attribute 'listen'")),
       Sample.down).
Proof.
  split.
  - destruct (proj1 (twilio_voice_reply_is_lost (Env := Sample.env)
                       Sample.speech_request Sample.up)
                "book an appointment") as (reply & w' & Hrun & _ & Hvoice);
      [reflexivity | discriminate |].
    exists reply, w'. split; assumption.
  - apply (proj2 (twilio_voice_reply_is_lost (Env := Sample.env)
                    Sample.first_request Sample.down)).
    left. reflexivity.
Defined.


(** ** Beyond one handler: edge cases, footprints and sequences of requests *)

Section Application.
Context {W : Type} `{Env : Environment W}.

(** *** The handlers in one equation each *)

Lemma make_call_run (request : CallRequest) (w : World W) :
  let twiml := VoiceResponse_str [Say (message request) "alice" "en-US"] in
  let answer :=
    twilio_api (phone_number request) TWILIO_PHONE_NUMBER twiml (providers w) in
  make_call request w =
    (match answer.1 with
     | inl e => Raised (HTTPException 500 (str e))
     | inr call => Returned {[ "status" := "initiated"; "sid" := sid call ]}
     end,
     mkWorld answer.2 (documents w)
       (requests w ++
          [TwilioCallsCreate (phone_number request) TWILIO_PHONE_NUMBER twiml])).
Proof.
  intros twiml answer. unfold make_call. run_handler.
  fold twiml answer. by destruct answer as [[e|call] p].
Qed.

Lemma create_appointment_run (request : AppointmentRequest) (w : World W) :
  let document_data : dict :=
    {[ "client_name" := client_name request;
       "doctor_name" := doctor_name request;
       "time" := time request ]} in
  let answer := firestore_api "appointments" document_data (providers w) in
  create_appointment request w =
    (match answer.1 with
     | inl e => Raised (HTTPException 500 (str e))
     | inr (_, new_id) =>
         Returned {[ "status" := "success"; "appointment_id" := new_id ]}
     end,
     mkWorld answer.2
       (documents w ++
          match answer.1 with
          | inl _ => []
          | inr (_, new_id) =>
              [mkStoredDocument "appointments" new_id document_data]
          end)
       (requests w ++ [FirestoreAdd "appointments" document_data])).
Proof.
  intros document_data answer. unfold create_appointment. run_handler.
  fold document_data answer.
  destruct answer as [[e|[update_time new_id]] p]; simpl;
    [by rewrite app_nil_r | done].
Qed.

Lemma twilio_voice_run (request : Request) (w : World W) :
  let speech :=
    FormData_get "SpeechResult" EmptyString (body_fields request) in
  twilio_voice request w =
    (Raised (Unhandled no_attribute_listen),
     if truthy speech
     then (handle_conversation speech default_model w).2
     else w).
Proof.
  intros speech. destruct (truthy speech) eqn:Hspeech.
  - pose proof (handle_conversation_run speech default_model w) as Hrun.
    simpl in Hrun. rewrite Hrun. simpl.
    by eapply twilio_voice_with_speech.
  - by apply twilio_voice_without_speech.
Qed.

(** What one request does to the world: it keeps every stored document and
    every recorded request, adds at most one request, and adds a document,
    an appointment record, exactly when it is an accepted appointment. *)
Lemma invoke_effect (call : Invocation) (w : World W) :
  ∃ (docs : list StoredDocument) (reqs : list ext_call),
    documents (invoke call w).2 = documents w ++ docs
    ∧ requests (invoke call w).2 = requests w ++ reqs
    ∧ Forall appointment_record docs
    ∧ length docs
        = (if appointment_accepted (call, (invoke call w).1) then 1 else 0)%nat
    ∧ (length reqs ≤ 1)%nat.
Proof.
  destruct call as [|request|request|request]; unfold invoke.
  - exists [], []. unfold root, mbind, M_bind, mret, M_ret. simpl.
    rewrite !app_nil_r. split_and!; auto.
  - unfold mbind, M_bind. rewrite make_call_run.
    destruct (twilio_api _ _ _ _) as [[e|call] p]; simpl;
      eexists [], [_]; simpl; rewrite app_nil_r; split_and!; auto.
  - unfold mbind, M_bind. rewrite create_appointment_run.
    destruct (firestore_api _ _ _) as [[e|[update_time new_id]] p]; simpl.
    + eexists [], [_]; simpl; split_and!; auto.
    + eexists [_], [_]; simpl; split_and!; auto.
      constructor; [|constructor]. split; [reflexivity|]. simpl.
      rewrite !dom_insert_L, dom_singleton_L. set_solver.
  - unfold mbind, M_bind. rewrite twilio_voice_run.
    destruct (truthy _).
    + rewrite handle_conversation_run. simpl.
      eexists [], [_]; simpl; rewrite app_nil_r; split_and!; auto.
    + exists [], []. unfold mret, M_ret. simpl.
      rewrite !app_nil_r. split_and!; auto.
Qed.

Lemma serve_cons (call : Invocation) (calls : list Invocation) (w : World W) :
  serve (call :: calls) w =
    ((invoke call w).1 :: (serve calls (invoke call w).2).1,
     (serve calls (invoke call w).2).2).
Proof.
  simpl. destruct (invoke call w) as [r w1]. simpl.
  by destruct (serve calls w1) as [rs w2].
Qed.

Lemma serve_length (calls : list Invocation) (w : World W) :
  length (serve calls w).1 = length calls.
Proof.
  revert w. induction calls as [|call calls IH]; intros w; [done|].
  rewrite serve_cons. simpl. by rewrite IH.
Qed.

(** What a sequence of requests does to the world. *)
Lemma serve_effect (calls : list Invocation) (w : World W) :
  ∃ (docs : list StoredDocument) (reqs : list ext_call),
    documents (serve calls w).2 = documents w ++ docs
    ∧ requests (serve calls w).2 = requests w ++ reqs
    ∧ Forall appointment_record docs
    ∧ length docs
        = length (List.filter appointment_accepted
                    (zip calls (serve calls w).1))
    ∧ (length reqs ≤ length calls)%nat.
Proof.
  revert w. induction calls as [|call calls IH]; intros w.
  - exists [], []. simpl. rewrite !app_nil_r. split_and!; auto.
  - rewrite serve_cons.
    destruct (invoke_effect call w) as (d1 & r1 & Hd1 & Hr1 & Hwf1 & Hn1 & Hm1).
    destruct (IH (invoke call w).2)
      as (d2 & r2 & Hd2 & Hr2 & Hwf2 & Hn2 & Hm2).
    exists (d1 ++ d2), (r1 ++ r2). simpl.
    rewrite Hd2, Hr2, Hd1, Hr1, !app_assoc, !length_app.
    split_and!.
    + done.
    + done.
    + apply Forall_app. by split.
    + rewrite Hn1, Hn2. unfold appointment_accepted at 1.
      by destruct call, ((invoke _ w).1).
    + lia.
Qed.

(** Only appointment requests are ever accepted appointments. *)
Lemma accepted_are_appointment_requests (calls : list Invocation)
    (results : list (outcome exn Reply)) :
  (length (List.filter appointment_accepted (zip calls results))
   ≤ length (List.filter is_appointment_request calls))%nat.
Proof.
  revert results. induction calls as [|call calls IH]; intros results;
    [simpl; lia|].
  destruct results as [|r results]; [simpl; lia|].
  specialize (IH results). simpl.
  destruct call, r; simpl; lia.
Qed.

(** *** The conversation helper at its edges *)

(** X1: when the provider answers with a completion that has no choice,
    [choices[0]] raises inside the [try] and [handle_conversation] returns
    the text ["Error: list index out of range"] as if it were a reply. *)
Theorem handle_conversation_no_choices (prompt model : string) (w : World W)
    (completion : ChatCompletion) (p : W) :
  openai_api model [ {[ "role" := "user"; "content" := prompt ]} ]
    (providers w) = (inr completion, p) →
  choices completion = [] →
  handle_conversation prompt model w =
    (Returned "Error: list index out of range",
     mkWorld p (documents w)
       (requests w ++
          [OpenAIChatCompletionCreate model
             [ {[ "role" := "user"; "content" := prompt ]} ]])).
Proof.
  intros Hapi Hnone. rewrite handle_conversation_run. simpl.
  by rewrite Hapi; simpl; rewrite Hnone.
Qed.

(** *** What the routes never do *)

(** X4: on the three JSON routes no provider exception leaves a handler as
    it came: whatever [GET /], [POST /call] or [POST /appointment] raises
    is an [HTTPException] with status 500, and it is [POST /call] or
    [POST /appointment] that raised it; [GET /] never raises.  (What the
    webhook raises is the subject of C5.) *)
Theorem invoke_raises_only_http_500 (call : Invocation) (w : World W)
    (e : exn) :
  (∀ request : Request, call ≠ POST_twilio_voice request) →
  (invoke call w).1 = Raised e →
  (∃ detail : string, e = HTTPException 500 detail)
  ∧ ((∃ request, call = POST_call request)
     ∨ (∃ request, call = POST_appointment request)).
Proof.
  intros Hjson.
  destruct call as [|request|request|request]; unfold invoke.
  - discriminate.
  - unfold mbind, M_bind. rewrite make_call_run.
    destruct (twilio_api _ _ _ _) as [[e'|call] p]; simpl;
      [|discriminate].
    intros [= <-]. eauto.
  - unfold mbind, M_bind. rewrite create_appointment_run.
    destruct (firestore_api _ _ _) as [[e'|[update_time new_id]] p]; simpl;
      [|discriminate].
    intros [= <-]. eauto.
  - by destruct (Hjson request).
Qed.

(** X5: [POST /call] returns exactly when the telephony provider answered:
    it reports no success the provider did not give and hides none. *)
Theorem make_call_returns_iff_provider_answers (request : CallRequest)
    (w : World W) :
  (∃ body : dict, (make_call request w).1 = Returned body)
  ↔ (∃ call : CallInstance,
       (twilio_api (phone_number request) TWILIO_PHONE_NUMBER
          (VoiceResponse_str [Say (message request) "alice" "en-US"])
          (providers w)).1 = inr call).
Proof.
  rewrite make_call_run. simpl.
  destruct (twilio_api _ _ _ _) as [[e|call] p]; simpl.
  - split; intros [? [=]].
  - split; eauto.
Qed.

(** X7: each route talks to one provider at most and always the same one:
    [GET /] leaves the world alone; [POST /call] issues one Twilio request
    and leaves the store alone; [POST /appointment] issues one Firestore
    insert into [appointments]; the webhook leaves the store alone and
    issues no request or one chat completion for the model
    [gpt-3.5-turbo]. *)
Theorem invoke_footprint (call : Invocation) (w : World W) :
  match call with
  | GET_root => (invoke call w).2 = w
  | POST_call request =>
      documents (invoke call w).2 = documents w
      ∧ ∃ twiml : string,
          requests (invoke call w).2 =
            requests w ++
            [TwilioCallsCreate (phone_number request) TWILIO_PHONE_NUMBER twiml]
  | POST_appointment _ =>
      ∃ document_data : dict,
        requests (invoke call w).2 =
          requests w ++ [FirestoreAdd "appointments" document_data]
  | POST_twilio_voice _ =>
      documents (invoke call w).2 = documents w
      ∧ (requests (invoke call w).2 = requests w
         ∨ ∃ messages : list dict,
             requests (invoke call w).2 =
               requests w ++
               [OpenAIChatCompletionCreate "gpt-3.5-turbo" messages])
  end.
Proof.
  destruct call as [|request|request|request]; unfold invoke.
  - reflexivity.
  - unfold mbind, M_bind. rewrite make_call_run.
    destruct (twilio_api _ _ _ _) as [[e|call] p]; simpl; eauto.
  - unfold mbind, M_bind. rewrite create_appointment_run.
    destruct (firestore_api _ _ _) as [[e|[update_time new_id]] p]; simpl;
      eauto.
  - unfold mbind, M_bind. rewrite twilio_voice_run.
    destruct (truthy _).
    + rewrite handle_conversation_run. simpl. eauto.
    + simpl. eauto.
Qed.

(** *** Sequences of requests *)

(** X8: the store is append-only under any sequence of requests: the
    documents it held are still there, unchanged and in the same order,
    and every document added since is an appointment record, in the
    collection [appointments] with exactly the fields [client_name],
    [doctor_name] and [time]. *)
Theorem serve_store_append_only (calls : list Invocation) (w : World W) :
  ∃ docs : list StoredDocument,
    documents (serve calls w).2 = documents w ++ docs
    ∧ Forall appointment_record docs.
Proof.
  destruct (serve_effect calls w) as (docs & reqs & Hd & _ & Hwf & _).
  by exists docs.
Qed.

(** X9: after any sequence of requests the store has grown by at least as
    many documents as appointment requests were answered without an
    exception, and by at most as many as there were appointment requests:
    every reported success stored a document, and calls, webhook turns and
    health checks stored none. *)
Theorem serve_documents_bounds (calls : list Invocation) (w : World W) :
  (length (documents w)
   + length (List.filter appointment_accepted (zip calls (serve calls w).1))
   ≤ length (documents (serve calls w).2))%nat
  ∧ (length (documents (serve calls w).2)
     ≤ length (documents w)
       + length (List.filter is_appointment_request calls))%nat.
Proof.
  destruct (serve_effect calls w) as (docs & reqs & Hd & _ & _ & Hn & _).
  pose proof (accepted_are_appointment_requests calls (serve calls w).1).
  rewrite Hd, length_app, Hn. lia.
Qed.

(** X10: no request is retried or fanned out: a sequence of inbound
    requests adds at most as many outbound requests as it is long, after
    the ones already recorded. *)
Theorem serve_requests_bounded (calls : list Invocation) (w : World W) :
  ∃ reqs : list ext_call,
    requests (serve calls w).2 = requests w ++ reqs
    ∧ (length reqs ≤ length calls)%nat.
Proof.
  destruct (serve_effect calls w) as (docs & reqs & _ & Hr & _ & _ & Hm).
  by exists reqs.
Qed.

(** X11: an appointment that was answered with success stays in the store
    under the identifier that was returned, with the fields that were
    submitted, whatever requests are served afterwards. *)
Theorem appointment_persists (request : AppointmentRequest) (w w1 : World W)
    (body : dict) (calls : list Invocation) :
  create_appointment request w = (Returned body, w1) →
  ∃ new_id : string,
    body !! "appointment_id" = Some new_id
    ∧ mkStoredDocument "appointments" new_id
        {[ "client_name" := client_name request;
           "doctor_name" := doctor_name request;
           "time" := time request ]}
      ∈ documents (serve calls w1).2.
Proof.
  rewrite create_appointment_run. simpl.
  destruct (firestore_api _ _ _) as [[e|[update_time new_id]] p]; simpl;
    [discriminate|].
  intros [= <- <-]. exists new_id. split; [by simplify_map_eq|].
  destruct (serve_effect calls
              (mkWorld p
                 (documents w ++
                    [mkStoredDocument "appointments" new_id
                       {[ "client_name" := client_name request;
                          "doctor_name" := doctor_name request;
                          "time" := time request ]}])
                 (requests w ++
                    [FirestoreAdd "appointments"
                       {[ "client_name" := client_name request;
                          "doctor_name" := doctor_name request;
                          "time" := time request ]}])))
    as (docs & reqs & Hd & _).
  rewrite Hd. simpl. rewrite !elem_of_app, list_elem_of_singleton. auto.
Qed.

End Application.


(** *** Start-up *)

Section StartupProperties.
Context {P C D : Type} `{Lib : FirebaseAdmin P C D}.

(** X12: the Firebase block can be run again in the same process.  Provided
    [initialize_app] registers the app it creates and [firestore.client]
    leaves the registry alone, once the block has succeeded a second run
    only asks for the store client: it neither reads the credentials file,
    whatever its path now is, nor initialises an app again. *)
Theorem initialize_firebase_idempotent (file file' : option string)
    (s s' : P) (db : D) :
  (∀ (cred : C) (s1 s2 : P) (u : ()),
     firebase_admin_initialize_app cred s1 = (inr u, s2) →
     firebase_admin_apps s2 = true) →
  (∀ (s1 s2 : P) (r : Exception + D),
     firestore_client s1 = (r, s2) →
     firebase_admin_apps s2 = firebase_admin_apps s1) →
  initialize_firebase file s = (Returned db, s') →
  firebase_admin_apps s' = true
  ∧ initialize_firebase file' s' = db_client s'.
Proof.
  intros Hregisters Hkeeps Hfirst.
  assert (Hregistered : firebase_admin_apps s' = true).
  { revert Hfirst. unfold initialize_firebase, initialize_app_once, db_client.
    destruct (firebase_admin_apps s) eqn:Hguard; simpl.
    - destruct (firestore_client s) as [[e|db'] s1] eqn:Hclient;
        intros [= <- <-].
      by rewrite (Hkeeps _ _ _ Hclient).
    - destruct (credentials_Certificate file s) as [[e|cred] s1];
        [discriminate|].
      destruct (firebase_admin_initialize_app cred s1) as [[e|u] s2]
        eqn:Hinit; [discriminate|].
      destruct (firestore_client s2) as [[e|db'] s3] eqn:Hclient;
        intros [= <- <-].
      rewrite (Hkeeps _ _ _ Hclient). by eapply Hregisters. }
  split; [done|].
  unfold initialize_firebase, initialize_app_once. by rewrite Hregistered.
Qed.

End StartupProperties.

(** ** The further theorems at work *)

Lemma handle_conversation_no_choices_witness :
  handle_conversation (Env := Scenario.silent_env) "hello" default_model
    Sample.up =
    (Returned "Error: list index out of range",
     mkWorld 3%nat []
       [OpenAIChatCompletionCreate "gpt-3.5-turbo"
          [ {[ "role" := "user"; "content" := "hello" ]} ]]).
Proof.
  apply (handle_conversation_no_choices (Env := Scenario.silent_env)
           "hello" default_model Sample.up
           (mkChatCompletion "chatcmpl-0" []) 3%nat);
    reflexivity.
Defined.

Lemma invoke_raises_only_http_500_witness :
  (∃ detail : string,
     HTTPException 500 "HTTP 429 error: Too Many Requests"
       = HTTPException 500 detail)
  ∧ ((∃ request, POST_call Sample.call_request = POST_call request)
     ∨ (∃ request, POST_call Sample.call_request = POST_appointment request)).
Proof.
  apply (invoke_raises_only_http_500 (Env := Sample.env)
           (POST_call Sample.call_request) Sample.down
           (HTTPException 500 "HTTP 429 error: Too Many Requests"));
    [discriminate | reflexivity].
Defined.

Lemma appointment_persists_witness :
  ∃ new_id : string,
    ({[ "status" := "success"; "appointment_id" := "doc3" ]} : dict)
      !! "appointment_id" = Some new_id
    ∧ mkStoredDocument "appointments" new_id
        {[ "client_name" := "Ada"; "doctor_name" := "Dr. Grace";
           "time" := "2025-10-16T10:30:00Z" ]}
      ∈ documents
          (serve (Env := Sample.env) Scenario.morning
             (mkWorld 2%nat
                [mkStoredDocument "appointments" "doc3"
                   {[ "client_name" := "Ada"; "doctor_name" := "Dr. Grace";
                      "time" := "2025-10-16T10:30:00Z" ]}]
                [FirestoreAdd "appointments"
                   {[ "client_name" := "Ada"; "doctor_name" := "Dr. Grace";
                      "time" := "2025-10-16T10:30:00Z" ]}])).2.
Proof.
  apply (appointment_persists (Env := Sample.env)
           Sample.appointment_request Sample.up).
  reflexivity.
Defined.

Lemma initialize_firebase_idempotent_witness :
  firebase_admin_apps (FirebaseAdmin := Scenario.firebase)
    (Scenario.mkProcess ["[DEFAULT]"] ["serviceAccountKey.json"]) = true
  ∧ initialize_firebase (Lib := Scenario.firebase) None
      (Scenario.mkProcess ["[DEFAULT]"] ["serviceAccountKey.json"])
    = db_client (Lib := Scenario.firebase)
        (Scenario.mkProcess ["[DEFAULT]"] ["serviceAccountKey.json"]).
Proof.
  apply (initialize_firebase_idempotent (Lib := Scenario.firebase)
           (Some "serviceAccountKey.json") None Scenario.fresh_process
           (Scenario.mkProcess ["[DEFAULT]"] ["serviceAccountKey.json"])
           "firestore-client").
  - intros cred s1 s2 u. simpl. unfold Scenario.initialize_app.
    destruct (bool_decide ("[DEFAULT]" ∈ Scenario.apps s1));
      [discriminate|].
    intros Hinit. injection Hinit as _ <-. reflexivity.
  - intros s1 s2 r. simpl. unfold Scenario.client.
    destruct (bool_decide ("[DEFAULT]" ∈ Scenario.apps s1));
      intros Hclient; injection Hclient as _ <-; reflexivity.
  - reflexivity.
Defined.
